(** * Solax inverter sensor platform
    (homeassistant/components/solax/sensor.py)

    A shallow embedding of the platform set-up ([async_setup_entry]), of the
    poller ([RealTimeDataEndpoint.async_refresh]) and of the entities it
    feeds ([InverterEntity]), followed by the properties the specification
    states about them.

    Conventions of the embedding:
    - a Python [dict] is a [gmap]; the ordered [sensor_map().items()] is an
      association list, because the order of the created entities follows it;
    - an attribute that may hold [None] is an [option];
    - a call that may raise returns an [outcome];
    - [self] is passed in and handed back, and the calls made into the host
      (Home Assistant) are collected in the order they are made;
    - what [await self.api.get_data()] produces is an input of the embedded
      function: it is the only contact with the device. *)

From Stdlib Require Import ZArith.
From stdpp Require Import base gmap strings list pretty.

Local Open Scope Z_scope.

(** ** Names imported by the module *)

(** [solax.units.Units]: the members the module tests for, and any other one. *)
Module Units.
Inductive t : Set := W | KWH | A | V | C | PERCENT | Other (name : string).

#[global] Instance eq_dec : EqDecision t.
Proof. solve_decision. Defined.

(** A display string for each member, for the examples; the platform takes
    the [value] of the members from the library as a parameter. *)
Definition show (member : t) : string :=
  match member with
  | W => "W" | KWH => "kWh" | A => "A" | V => "V" | C => "C"
  | PERCENT => "%" | Other name => name
  end.
End Units.

(** What [sensor_map()] pairs with every sensor name: an object with a [unit]
    attribute ([unit.unit] in the source) that may be an instance of
    [solax.units.Monotonic]. *)
Record UnitObj : Set := {
  unit : Units.t;
  is_Monotonic : bool                 (* isinstance(unit, Monotonic) *)
}.

Module SensorStateClass.
Inductive t : Set := MEASUREMENT | TOTAL | TOTAL_INCREASING.
End SensorStateClass.

Module SensorDeviceClass.
Inductive t : Set := TEMPERATURE | ENERGY | VOLTAGE | CURRENT | POWER | BATTERY.
End SensorDeviceClass.

(** [datetime.timedelta], normalised as Python does: days, seconds in
    [0, 86400) and microseconds in [0, 10^6). *)
Module timedelta.
Record t : Set := { days : Z; seconds : Z; microseconds : Z }.

(** [timedelta(seconds=s)] *)
Definition of_seconds (s : Z) : t :=
  {| days := s `div` 86400; seconds := s `mod` 86400; microseconds := 0 |}.

(** [td.total_seconds()], in microseconds to stay in [Z]. *)
Definition total_microseconds (td : t) : Z :=
  (days td * 86400 + seconds td) * 1000000 + microseconds td.
End timedelta.

(** The exceptions that can travel through the module. [InverterError]
    stands for every instance of that class, which is what
    [except InverterError] catches; [OtherException] stands for an exception
    that is an instance of none of the classes named here. *)
Inductive pyexn : Set :=
  | InverterError (msg : string)
  | PlatformNotReady (cause : pyexn)          (* raise PlatformNotReady from err *)
  | KeyError (k : string)
  | OtherException (cls msg : string).

Definition is_InverterError (e : pyexn) : bool :=
  match e with InverterError _ => true | _ => false end.

Inductive outcome (A : Type) : Type :=
  | Returned (a : A)
  | Raised (e : pyexn).
Arguments Returned {A} a.
Arguments Raised {A} e.

(** ** Module constants *)

Definition DEFAULT_PORT : Z := 80.
Definition SCAN_INTERVAL : timedelta.t := timedelta.of_seconds 30.

(** ** Entities, endpoint, host calls *)

Record DeviceInfo : Set := {
  identifiers : list (string * string);
  manufacturer : string;
  name : string;
  sw_version : string
}.

Section Platform.

(** The readings the inverter reports. The module only copies them. *)
Context {Reading : Type}.

Record InverterEntity : Type := {
  _attr_unique_id : string;
  _attr_name : string;
  _attr_native_unit_of_measurement : string;
  _attr_state_class : option SensorStateClass.t;
  _attr_device_class : option SensorDeviceClass.t;
  _attr_device_info : DeviceInfo;
  key : string;
  value : option Reading
}.

(** [sensor.value = v] *)
Definition set_value (sensor : InverterEntity) (v : Reading) : InverterEntity :=
  {| _attr_unique_id := _attr_unique_id sensor;
     _attr_name := _attr_name sensor;
     _attr_native_unit_of_measurement := _attr_native_unit_of_measurement sensor;
     _attr_state_class := _attr_state_class sensor;
     _attr_device_class := _attr_device_class sensor;
     _attr_device_info := _attr_device_info sensor;
     key := key sensor;
     value := Some v |}.

(** The response of [api.get_data()]. *)
Record InverterResponse : Type := {
  data : gmap string Reading;
  serial_number : string;
  version : string
}.

(** What the module reads of a [RealTimeAPI]: [api.inverter.manufacturer]
    and [api.inverter.sensor_map()]. *)
Record RealTimeAPI : Set := {
  inverter_manufacturer : string;
  inverter_sensor_map : list (string * (Z * UnitObj))
}.

(** [self.ready] is an [asyncio.Event]: [set()] makes it [true], [clear()]
    makes it [false], and a new one is [false]. *)
Record RealTimeDataEndpoint : Type := {
  api : RealTimeAPI;
  ready : bool;
  sensors : list InverterEntity
}.

Inductive Callback : Set := endpoint_async_refresh.

(** Calls into the host. An entity of [self.sensors] is named by its
    position in that list: [async_setup_entry] fills the list with objects
    it has just constructed, one per position. *)
Inductive HostCall : Type :=
  | async_add_job (target : Callback)
  | async_track_time_interval (action : Callback) (interval : timedelta.t)
  | async_add_entities (new_entities : list InverterEntity)
  | async_schedule_update_ha_state (position : nat).

(** *** [InverterEntity.__init__] *)

Section Init.
(** [DOMAIN] and [MANUFACTURER] come from [.const]. *)
Variables DOMAIN MANUFACTURER : string.

Definition InverterEntity_init
    (manufacturer uid serial version key unit : string)
    (state_class : option SensorStateClass.t)
    (device_class : option SensorDeviceClass.t) : InverterEntity :=
  {| _attr_unique_id := uid;
     _attr_name := manufacturer +:+ " " +:+ serial +:+ " " +:+ key;
     _attr_native_unit_of_measurement := unit;
     _attr_state_class := state_class;
     _attr_device_class := device_class;
     _attr_device_info :=
       {| identifiers := [(DOMAIN, serial)];
          manufacturer := MANUFACTURER;
          name := manufacturer +:+ " " +:+ serial;
          sw_version := version |};
     key := key;
     value := None |}.
End Init.

(** [InverterEntity.native_value] *)
Definition native_value (self : InverterEntity) : option Reading := value self.

(** *** [RealTimeDataEndpoint] *)

Definition RealTimeDataEndpoint_init (api : RealTimeAPI) : RealTimeDataEndpoint :=
  {| api := api; ready := false; sensors := [] |}.

(** One turn of the loop of [async_refresh], on the sensor at position [i]:
    the sensor as the turn leaves it, and the update request it made. *)
Definition refresh_sensor (data : gmap string Reading) (i : nat)
    (sensor : InverterEntity) : InverterEntity * list HostCall :=
  match data !! key sensor with
  | Some v => (set_value sensor v, [async_schedule_update_ha_state i])
  | None => (sensor, [])
  end.

(** The loop over [self.sensors], from position [i] on. *)
Fixpoint refresh_sensors (data : gmap string Reading) (i : nat)
    (sensors : list InverterEntity) : list InverterEntity * list HostCall :=
  match sensors with
  | [] => ([], [])
  | sensor :: rest =>
      let '(sensor', requested) := refresh_sensor data i sensor in
      let '(rest', calls) := refresh_sensors data (S i) rest in
      (sensor' :: rest', requested ++ calls)
  end.

(** A run of [async_refresh]: how it ended, [self] afterwards, and the
    calls it made into the host. *)
Record refresh_run : Type := {
  result : outcome Datatypes.unit;
  after : RealTimeDataEndpoint;
  calls : list HostCall
}.

(** [now] is [None] for the call queued at set-up and the firing time for
    the calls of the interval timer. *)
Definition async_refresh (self : RealTimeDataEndpoint) (now : option Z)
    (get_data : outcome InverterResponse) : refresh_run :=
  match get_data with
  | Returned api_response =>
      let '(sensors', calls) := refresh_sensors (data api_response) 0 (sensors self) in
      {| result := Returned tt;
         after := {| api := api self; ready := true; sensors := sensors' |};
         calls := calls |}
  | Raised err =>
      if is_InverterError err then
        match now with
        | Some _ =>
            {| result := Returned tt;
               after := {| api := api self; ready := false; sensors := sensors self |};
               calls := [] |}
        | None =>
            {| result := Raised (PlatformNotReady err); after := self; calls := [] |}
        end
      else {| result := Raised err; after := self; calls := [] |}
  end.

(** *** [async_setup_entry] *)

Section Setup.
Variables DOMAIN MANUFACTURER : string.
(** [unit == member]: the comparison of the catalog's unit object with a
    member of [Units], as the library of the unit objects defines it. *)
Variable unit_eq : UnitObj → Units.t → bool.
(** [member.value], the display string of a member of [Units]. *)
Variable Units_value : Units.t → string.

Definition select_state_class (unit : UnitObj) : option SensorStateClass.t :=
  if is_Monotonic unit then Some SensorStateClass.TOTAL_INCREASING
  else Some SensorStateClass.MEASUREMENT.

Definition select_device_class (u : UnitObj) : option SensorDeviceClass.t :=
  if decide (unit u = Units.C) then Some SensorDeviceClass.TEMPERATURE
  else if unit_eq u Units.KWH then Some SensorDeviceClass.ENERGY
  else if unit_eq u Units.V then Some SensorDeviceClass.VOLTAGE
  else if unit_eq u Units.A then Some SensorDeviceClass.CURRENT
  else if unit_eq u Units.W then Some SensorDeviceClass.POWER
  else if unit_eq u Units.PERCENT then Some SensorDeviceClass.BATTERY
  else None.

(** The body of the loop over [sensor_map().items()]. *)
Definition make_device (manufacturer serial version : string)
    (item : string * (Z * UnitObj)) : InverterEntity :=
  let '(sensor, (idx, u)) := item in
  let state_class := select_state_class u in
  let device_class := select_device_class u in
  let uid := serial +:+ "-" +:+ pretty idx in
  InverterEntity_init DOMAIN MANUFACTURER
    manufacturer uid serial version sensor (Units_value (unit u))
    state_class device_class.

Record setup_run : Type := {
  setup_result : outcome Datatypes.unit;
  endpoint : option RealTimeDataEndpoint;   (* the endpoint, once created *)
  setup_calls : list HostCall
}.

Definition setup_raised (e : pyexn) : setup_run :=
  {| setup_result := Raised e; endpoint := None; setup_calls := [] |}.

(** [hass_data] is [hass.data]; [entry_id] is [entry.entry_id];
    [get_data] is what the first [await api.get_data()] produces. *)
Definition async_setup_entry
    (hass_data : gmap string (gmap string RealTimeAPI)) (entry_id : string)
    (get_data : outcome InverterResponse) : setup_run :=
  match hass_data !! DOMAIN with
  | None => setup_raised (KeyError DOMAIN)
  | Some entries =>
      match entries !! entry_id with
      | None => setup_raised (KeyError entry_id)
      | Some api =>
          match get_data with
          | Raised e => setup_raised e
          | Returned resp =>
              let serial := serial_number resp in
              let version := version resp in
              let endpoint := RealTimeDataEndpoint_init api in
              let devices :=
                map (make_device (inverter_manufacturer api) serial version)
                    (inverter_sensor_map api) in
              {| setup_result := Returned tt;
                 endpoint :=
                   Some {| api := api; ready := ready endpoint; sensors := devices |};
                 setup_calls :=
                   [ async_add_job endpoint_async_refresh;
                     async_track_time_interval endpoint_async_refresh SCAN_INTERVAL;
                     async_add_entities devices ] |}
          end
      end
  end.
End Setup.

End Platform.

Arguments InverterEntity : clear implicits.
Arguments InverterResponse : clear implicits.
Arguments RealTimeDataEndpoint : clear implicits.
Arguments HostCall : clear implicits.
Arguments refresh_run : clear implicits.
Arguments setup_run : clear implicits.

(** ** The scenario of the specification

    A catalog with a battery level in percent and a photovoltaic power in
    watt, and the two snapshots the inverter answers with. Readings are
    integers here. *)

Definition scenario_api : RealTimeAPI :=
  {| inverter_manufacturer := "Solax";
     inverter_sensor_map :=
       [ ("soc", (0, {| unit := Units.PERCENT; is_Monotonic := false |}));
         ("pv1_power", (1, {| unit := Units.W; is_Monotonic := false |})) ] |}.

Definition scenario_response (data : gmap string Z) : InverterResponse Z :=
  {| data := data; serial_number := "SN1"; version := "1.0" |}.

Definition snapshot1 : gmap string Z := {[ "soc" := 42 ]}.
Definition snapshot2 : gmap string Z := <[ "pv1_power" := 1200 ]> {[ "soc" := 50 ]}.

(** [hass.data] holding the scenario's API under [DOMAIN] and entry ["e1"]. *)
Definition scenario_hass_data (DOMAIN : string) : gmap string (gmap string RealTimeAPI) :=
  {[ DOMAIN := {[ "e1" := scenario_api ]} ]}.

(** A unit object never equals a member of [Units]: what Python answers when
    the class of the unit objects defines no comparison with the enumeration. *)
Definition unit_eq_never (u : UnitObj) (member : Units.t) : bool := false.

(** A unit object equals the member it carries. *)
Definition unit_eq_inner (u : UnitObj) (member : Units.t) : bool :=
  bool_decide (unit u = member).

(** The key and the value of every sensor of an endpoint, in order. *)
Definition readings {Reading : Type} (ep : RealTimeDataEndpoint Reading)
    : list (string * option Reading) :=
  map (λ sensor, (key sensor, value sensor)) (sensors ep).

(** The two entities of the scenario, holding value [v]. *)
Definition soc_entity (v : option Z) : InverterEntity Z :=
  {| _attr_unique_id := "SN1-0";
     _attr_name := "Solax SN1 soc";
     _attr_native_unit_of_measurement := "%";
     _attr_state_class := Some SensorStateClass.MEASUREMENT;
     _attr_device_class := None;
     _attr_device_info :=
       {| identifiers := [("solax", "SN1")]; manufacturer := "Solax";
          name := "Solax SN1"; sw_version := "1.0" |};
     key := "soc";
     value := v |}.

Definition pv1_entity (v : option Z) : InverterEntity Z :=
  {| _attr_unique_id := "SN1-1";
     _attr_name := "Solax SN1 pv1_power";
     _attr_native_unit_of_measurement := "W";
     _attr_state_class := Some SensorStateClass.MEASUREMENT;
     _attr_device_class := None;
     _attr_device_info :=
       {| identifiers := [("solax", "SN1")]; manufacturer := "Solax";
          name := "Solax SN1"; sw_version := "1.0" |};
     key := "pv1_power";
     value := v |}.

(** An endpoint whose latest refresh succeeded, with snapshot [{soc: 42}]. *)
Definition ready_endpoint : RealTimeDataEndpoint Z :=
  {| api := scenario_api; ready := true;
     sensors := [soc_entity (Some 42); pv1_entity None] |}.

(** The intervals of the timers a list of host calls registers. *)
Definition poll_intervals {Reading : Type} (calls : list (HostCall Reading))
    : list timedelta.t :=
  omap (λ call, match call with
                | async_track_time_interval _ interval => Some interval
                | _ => None
                end) calls.

(** The life of an endpoint after set-up: the refresh queued at set-up
    ([now] is [None]) runs on the new endpoint, then the timer fires with the
    firing time. Each entry of [fetches] is what the fetch of one refresh
    produces; the host goes on whether a refresh returns or raises. *)
Definition refresh_all {Reading : Type} (self : RealTimeDataEndpoint Reading)
    (fetches : list (option Z * outcome (InverterResponse Reading)))
    : RealTimeDataEndpoint Reading :=
  foldl (λ ep call, after (async_refresh ep call.1 call.2)) self fetches.

Definition fetch_returned {A : Type} (o : outcome A) : bool :=
  match o with Returned _ => true | Raised _ => false end.

(** The fetch returned or raised the client's own [InverterError]. *)
Definition fetch_settled {A : Type} (o : outcome A) : bool :=
  match o with Returned _ => true | Raised e => is_InverterError e end.

(** The set-up call followed by timer calls at the given times. *)
Definition lifecycle {Reading : Type}
    (first : outcome (InverterResponse Reading))
    (later : list (Z * outcome (InverterResponse Reading)))
    : list (option Z * outcome (InverterResponse Reading)) :=
  (None, first) :: map (λ c, (Some c.1, c.2)) later.

(** Everything an entity holds besides its value: the attributes
    [InverterEntity.__init__] sets from its arguments. *)
Definition static_attributes {Reading : Type} (sensor : InverterEntity Reading) :=
  (_attr_unique_id sensor, _attr_name sensor,
   _attr_native_unit_of_measurement sensor,
   _attr_state_class sensor, _attr_device_class sensor,
   _attr_device_info sensor, key sensor).

(** An entity showing what the mapping [seen] holds for its key, and itself
    when [seen] holds nothing for it. *)
Definition show_latest {Reading : Type} (seen : gmap string Reading)
    (sensor : InverterEntity Reading) : InverterEntity Reading :=
  from_option (set_value sensor) sensor (seen !! key sensor).

(** The snapshots of the fetches that returned, laid over one another: a
    later snapshot overrides an earlier one key by key. *)
Definition latest_data {Reading : Type}
    (fetches : list (option Z * outcome (InverterResponse Reading)))
    : gmap string Reading :=
  foldl (λ seen call,
           match call.2 with
           | Returned resp => data resp ∪ seen
           | Raised _ => seen
           end) ∅ fetches.

(** *** Update requests that raise

    [async_refresh] above is the refresh whose update requests return.
    [sensor.async_schedule_update_ha_state()] is a call into the host, made
    outside the [try] of [async_refresh]: when it raises, the loop stops
    there and the exception leaves [async_refresh], after [self.ready.set()]
    and after the value of that sensor was written. [host i] is what the
    request on the entity at position [i] raises, [None] when it returns. *)

Fixpoint refresh_sensors_hosted {Reading : Type} (host : nat → option pyexn)
    (data : gmap string Reading) (i : nat) (sensors : list (InverterEntity Reading))
    : list (InverterEntity Reading) * list (HostCall Reading) * option pyexn :=
  match sensors with
  | [] => ([], [], None)
  | sensor :: rest =>
      match data !! key sensor with
      | Some v =>
          match host i with
          | Some e =>
              (set_value sensor v :: rest, [async_schedule_update_ha_state i], Some e)
          | None =>
              let '(rest', calls, raised) := refresh_sensors_hosted host data (S i) rest in
              (set_value sensor v :: rest', async_schedule_update_ha_state i :: calls, raised)
          end
      | None =>
          let '(rest', calls, raised) := refresh_sensors_hosted host data (S i) rest in
          (sensor :: rest', calls, raised)
      end
  end.

Definition async_refresh_hosted {Reading : Type} (host : nat → option pyexn)
    (self : RealTimeDataEndpoint Reading) (now : option Z)
    (get_data : outcome (InverterResponse Reading)) : refresh_run Reading :=
  match get_data with
  | Returned api_response =>
      let '(sensors', calls, raised) :=
        refresh_sensors_hosted host (data api_response) 0 (sensors self) in
      {| result := match raised with Some e => Raised e | None => Returned tt end;
         after := {| api := api self; ready := true; sensors := sensors' |};
         calls := calls |}
  | Raised err =>
      if is_InverterError err then
        match now with
        | Some _ =>
            {| result := Returned tt;
               after := {| api := api self; ready := false; sensors := sensors self |};
               calls := [] |}
        | None =>
            {| result := Raised (PlatformNotReady err); after := self; calls := [] |}
        end
      else {| result := Raised err; after := self; calls := [] |}
  end.

(** A sequence of refreshes, each with its origin, what its fetch produces
    and what its update requests raise. *)
Definition refresh_all_hosted {Reading : Type} (self : RealTimeDataEndpoint Reading)
    (refreshes : list (option Z * outcome (InverterResponse Reading)
                       * (nat → option pyexn)))
    : RealTimeDataEndpoint Reading :=
  foldl (λ ep call, after (async_refresh_hosted call.2 ep call.1.1 call.1.2))
        self refreshes.

(** The endpoint right after set-up on the scenario's catalog. *)
Definition new_endpoint : RealTimeDataEndpoint Z :=
  {| api := scenario_api; ready := false;
     sensors := [soc_entity None; pv1_entity None] |}.

(** A host whose update request on the first entity raises. *)
Definition host_failing_first (i : nat) : option pyexn :=
  match i with
  | O => Some (OtherException "RuntimeError" "no running event loop")
  | S _ => None
  end.

(** ** Properties of the refresh loop *)

Section LoopFacts.
Context {Reading : Type}.
Implicit Types (data : gmap string Reading) (sensor : InverterEntity Reading).
Implicit Types (l : list (InverterEntity Reading)).

Lemma refresh_sensors_cons data i sensor l :
  refresh_sensors data i (sensor :: l) =
    ((refresh_sensor data i sensor).1 :: (refresh_sensors data (S i) l).1,
     (refresh_sensor data i sensor).2 ++ (refresh_sensors data (S i) l).2).
Proof.
  simpl. destruct (refresh_sensor data i sensor), (refresh_sensors data (S i) l).
  reflexivity.
Qed.

(** The loop keeps every sensor at its position. *)
Lemma refresh_sensors_lookup data l : ∀ i j,
  (refresh_sensors data i l).1 !! j =
    (λ sensor, (refresh_sensor data (i + j) sensor).1) <$> l !! j.
Proof.
  induction l as [|sensor l IH]; intros i j; [reflexivity|].
  rewrite refresh_sensors_cons. destruct j as [|j]; simpl.
  - rewrite Nat.add_0_r. unfold refresh_sensor.
    destruct (data !! key sensor); reflexivity.
  - rewrite IH. replace (S i + j)%nat with (i + S j)%nat by lia. reflexivity.
Qed.

Lemma refresh_sensors_length data l i :
  length (refresh_sensors data i l).1 = length l.
Proof.
  revert i. induction l as [|sensor l IH]; intros i; [reflexivity|].
  rewrite refresh_sensors_cons. simpl. by rewrite IH.
Qed.

(** An update is requested exactly for the positions whose key is in the
    snapshot. *)
Lemma refresh_sensors_requests data l : ∀ i p,
  async_schedule_update_ha_state p ∈ (refresh_sensors data i l).2 ↔
    ∃ j sensor, p = (i + j)%nat ∧ l !! j = Some sensor ∧ is_Some (data !! key sensor).
Proof.
  induction l as [|sensor l IH]; intros i p.
  - simpl. split; [intros H; by apply elem_of_nil in H|].
    intros (j & s & _ & Hj & _). by rewrite lookup_nil in Hj.
  - rewrite refresh_sensors_cons. simpl. rewrite elem_of_app, IH. split.
    + intros [Hhd|(j & s & -> & Hj & Hs)].
      * unfold refresh_sensor in Hhd.
        destruct (data !! key sensor) as [v|] eqn:Hv; simpl in Hhd.
        -- apply list_elem_of_singleton in Hhd. injection Hhd as ->.
           exists 0%nat, sensor. rewrite Hv. split_and!; [lia|done|by eexists].
        -- by apply elem_of_nil in Hhd.
      * exists (S j), s. split_and!; [lia|done|done].
    + intros ([|j] & s & -> & Hj & Hs); simpl in Hj.
      * left. injection Hj as ->. destruct Hs as [v Hv].
        unfold refresh_sensor. rewrite Hv. simpl.
        rewrite Nat.add_0_r. apply list_elem_of_singleton. reflexivity.
      * right. exists j, s. split_and!; [lia|done|done].
Qed.

(** A refresh whose fetch returned: its three components. *)
Lemma async_refresh_returned (self : RealTimeDataEndpoint Reading) now resp :
  async_refresh self now (Returned resp) =
    {| result := Returned tt;
       after := {| api := api self; ready := true;
                   sensors := (refresh_sensors (data resp) 0 (sensors self)).1 |};
       calls := (refresh_sensors (data resp) 0 (sensors self)).2 |}.
Proof.
  unfold async_refresh. by destruct (refresh_sensors (data resp) 0 (sensors self)).
Qed.
End LoopFacts.

(** ** The refresh operation *)

Section Refresh.
Context {Reading : Type}.
Implicit Types (self : RealTimeDataEndpoint Reading) (now : option Z).
Implicit Types (resp : InverterResponse Reading) (sensor : InverterEntity Reading).

(** C1. When the fetch returns snapshot [resp], every entity of
    [self.sensors] whose key is among the keys of the snapshot holds the
    snapshot's value for that key once [async_refresh] has returned: its
    [value], which is its [native_value], is that value, and its other
    attributes are what they were. An update of the host's state was
    requested for that entity. *)
Theorem refresh_overwrites_present_keys self now resp i sensor v :
  sensors self !! i = Some sensor →
  data resp !! key sensor = Some v →
  let run := async_refresh self now (Returned resp) in
  result run = Returned tt ∧
  (∃ sensor',
     sensors (after run) !! i = Some sensor' ∧
     value sensor' = Some v ∧
     native_value sensor' = Some v ∧
     static_attributes sensor' = static_attributes sensor) ∧
  async_schedule_update_ha_state i ∈ calls run.
Proof.
  intros Hi Hv run. subst run. rewrite async_refresh_returned. simpl.
  split_and!; [reflexivity| |].
  - exists (refresh_sensor (data resp) (0 + i) sensor).1. split.
    + by rewrite refresh_sensors_lookup, Hi.
    + unfold refresh_sensor. rewrite Hv. by split_and!.
  - apply refresh_sensors_requests. exists i, sensor.
    split_and!; [reflexivity|exact Hi|by eexists].
Qed.

(** C2. When the fetch returns snapshot [resp], an entity whose key is not
    among the keys of the snapshot is after the refresh the entity it was
    before: its value and every other attribute are the same. No update is
    requested for it. *)
Theorem refresh_keeps_absent_keys self now resp i sensor :
  sensors self !! i = Some sensor →
  data resp !! key sensor = None →
  let run := async_refresh self now (Returned resp) in
  sensors (after run) !! i = Some sensor ∧
  async_schedule_update_ha_state i ∉ calls run.
Proof.
  intros Hi Hv run. subst run. rewrite async_refresh_returned. simpl. split.
  - rewrite refresh_sensors_lookup, Hi. simpl.
    unfold refresh_sensor. by rewrite Hv.
  - intros (j & s & Hij & Hj & Hs)%refresh_sensors_requests.
    simpl in Hij. subst j. rewrite Hi in Hj. injection Hj as <-.
    rewrite Hv in Hs. by destruct Hs.
Qed.

(** C3. A refresh from set-up ([now] is [None]) whose fetch raises
    [InverterError] raises [PlatformNotReady], chained to that error, and
    leaves the endpoint, hence every entity, as it was; it requests no
    update. *)
Theorem startup_failure_raises_not_ready self msg :
  let run := async_refresh self None (Raised (InverterError msg)) in
  result run = Raised (PlatformNotReady (InverterError msg)) ∧
  sensors (after run) = sensors self ∧
  calls run = [].
Proof. by split_and!. Qed.

(** C4. A refresh from the timer ([now] is the firing time) whose fetch
    raises [InverterError] returns normally, leaves the readiness flag
    cleared and every entity as it was. *)
Theorem scheduled_failure_is_swallowed self t msg :
  let run := async_refresh self (Some t) (Raised (InverterError msg)) in
  result run = Returned tt ∧
  ready (after run) = false ∧
  sensors (after run) = sensors self.
Proof. by split_and!. Qed.

(** C5, as amended. After a refresh whose fetch returned, the readiness
    flag is set, whatever the origin of the call. After a timer refresh
    whose fetch raised [InverterError] it is cleared. A set-up refresh whose
    fetch raised [InverterError] leaves the flag as it found it. *)
Theorem readiness_after_refresh :
  (∀ self now resp, ready (after (async_refresh self now (Returned resp))) = true) ∧
  (∀ self t msg,
     ready (after (async_refresh self (Some t) (Raised (InverterError msg)))) = false) ∧
  (∀ self msg,
     ready (after (async_refresh self None (Raised (InverterError msg)))) = ready self).
Proof.
  split_and!; [|done|done].
  intros self now resp. by rewrite async_refresh_returned.
Qed.

(** C9. An exception of the fetch that is not an [InverterError] leaves
    [async_refresh] as it is, from set-up and from the timer alike; the
    endpoint, with its readiness flag and its entities, is untouched and no
    update is requested. *)
Theorem other_exceptions_propagate self now err :
  is_InverterError err = false →
  async_refresh self now (Raised err) =
    {| result := Raised err; after := self; calls := [] |}.
Proof. intros Hne. unfold async_refresh. by rewrite Hne. Qed.

End Refresh.

(** C5 as first stated does not hold: [self.ready.clear()] is under
    [if now is not None], so the set-up refresh does not clear a flag that is
    set, and the readiness flag is [true] after a refresh whose fetch failed. *)
Lemma startup_failure_keeps_ready_set :
  let run := async_refresh ready_endpoint None (Raised (InverterError "timeout")) in
  ready ready_endpoint = true ∧
  result run = Raised (PlatformNotReady (InverterError "timeout")) ∧
  ready (after run) ≠ false.
Proof. by split_and!. Qed.

Lemma refresh_overwrites_present_keys_witness :
  let run := async_refresh ready_endpoint (Some 30)
               (Returned (scenario_response snapshot2)) in
  result run = Returned tt ∧
  (∃ sensor',
     sensors (after run) !! 0%nat = Some sensor' ∧
     value sensor' = Some 50 ∧
     native_value sensor' = Some 50 ∧
     static_attributes sensor' = static_attributes (soc_entity (Some 42))) ∧
  async_schedule_update_ha_state 0 ∈ calls run.
Proof.
  apply (refresh_overwrites_present_keys ready_endpoint (Some 30)
           (scenario_response snapshot2) 0 (soc_entity (Some 42)) 50);
    reflexivity.
Defined.

Lemma refresh_keeps_absent_keys_witness :
  let run := async_refresh ready_endpoint (Some 30)
               (Returned (scenario_response snapshot1)) in
  sensors (after run) !! 1%nat = Some (pv1_entity None) ∧
  async_schedule_update_ha_state 1 ∉ calls run.
Proof.
  apply (refresh_keeps_absent_keys ready_endpoint (Some 30)
           (scenario_response snapshot1) 1 (pv1_entity None));
    reflexivity.
Defined.

Lemma other_exceptions_propagate_witness :
  async_refresh ready_endpoint (Some 30) (Raised (OtherException "TimeoutError" "timed out")) =
    {| result := Raised (OtherException "TimeoutError" "timed out");
       after := ready_endpoint; calls := [] |}.
Proof.
  apply (other_exceptions_propagate ready_endpoint (Some 30)
           (OtherException "TimeoutError" "timed out")).
  reflexivity.
Defined.

(** ** Readiness over the life of an endpoint *)

Section Lifecycle.
Context {Reading : Type}.
Implicit Types (self : RealTimeDataEndpoint Reading).
Implicit Types (fetches : list (option Z * outcome (InverterResponse Reading))).

Lemma refresh_all_snoc self fetches call :
  refresh_all self (fetches ++ [call]) =
    after (async_refresh (refresh_all self fetches) call.1 call.2).
Proof. unfold refresh_all. by rewrite foldl_app. Qed.

Lemma lifecycle_snoc (first : outcome (InverterResponse Reading)) later c :
  lifecycle first (later ++ [c]) = lifecycle first later ++ [(Some c.1, c.2)].
Proof. unfold lifecycle. by rewrite map_app. Qed.

(** When the set-up refresh is the first call on a new endpoint and every
    later call comes from the timer, the flag says whether the latest fetch
    returned, as long as fetches fail with [InverterError] only. *)
Lemma lifecycle_ready_is_latest_fetch api
    (first : outcome (InverterResponse Reading)) later :
  fetch_settled first = true →
  Forall (λ c, fetch_settled c.2 = true) later →
  ready (refresh_all (RealTimeDataEndpoint_init api) (lifecycle first later)) =
    fetch_returned (List.last (map snd later) first).
Proof.
  intros Hfirst. induction later as [|c later IH] using rev_ind; intros Hlater.
  - change (ready (after (async_refresh (RealTimeDataEndpoint_init api) None first))
            = fetch_returned first).
    destruct first as [resp|err].
    + by rewrite async_refresh_returned.
    + unfold async_refresh. simpl in Hfirst. by rewrite Hfirst.
  - apply Forall_app in Hlater as [Hlater Hc]. rewrite Forall_singleton in Hc.
    rewrite lifecycle_snoc, refresh_all_snoc, map_app. cbn [map].
    rewrite last_last.
    destruct c as [t [resp|err]]; cbn [fst snd map] in *.
    + by rewrite async_refresh_returned.
    + unfold async_refresh. simpl in Hc. by rewrite Hc.
Qed.
End Lifecycle.

(** ** Set-up of the entities *)

Section SetupFacts.
Context {Reading : Type}.
Variables DOMAIN MANUFACTURER : string.
Variable unit_eq : UnitObj → Units.t → bool.
Variable Units_value : Units.t → string.

Implicit Types (hass_data : gmap string (gmap string RealTimeAPI)).
Implicit Types (resp : InverterResponse Reading).
Implicit Types (get_data : outcome (InverterResponse Reading)).

(** The set-up that finds its API and whose first fetch returns. *)
Lemma async_setup_entry_returned hass_data entries entry_id api resp :
  hass_data !! DOMAIN = Some entries →
  entries !! entry_id = Some api →
  let devices := map (make_device DOMAIN MANUFACTURER unit_eq Units_value
                        (inverter_manufacturer api) (serial_number resp)
                        (version resp)) (inverter_sensor_map api) in
  async_setup_entry DOMAIN MANUFACTURER unit_eq Units_value
    hass_data entry_id (Returned resp) =
    {| setup_result := Returned tt;
       endpoint := Some {| api := api; ready := false; sensors := devices |};
       setup_calls :=
         [ async_add_job endpoint_async_refresh;
           async_track_time_interval endpoint_async_refresh SCAN_INTERVAL;
           async_add_entities devices ] |}.
Proof. intros Hdomain Hentry. unfold async_setup_entry. by rewrite Hdomain, Hentry. Qed.

(** A set-up that returns has found its API and a response. *)
Lemma async_setup_entry_inv hass_data entry_id get_data :
  setup_result (async_setup_entry DOMAIN MANUFACTURER unit_eq Units_value
                  hass_data entry_id get_data) = Returned tt →
  ∃ entries api resp,
    hass_data !! DOMAIN = Some entries ∧ entries !! entry_id = Some api ∧
    get_data = Returned resp.
Proof.
  unfold async_setup_entry.
  destruct (hass_data !! DOMAIN) as [entries|] eqn:Hdomain; [|done].
  destruct (entries !! entry_id) as [api|] eqn:Hentry; [|done].
  destruct get_data as [resp|e]; [|done]. intros _. by exists entries, api, resp.
Qed.

(** C7. The selection of the device class tests the temperature case on
    the attribute of the unit object ([unit.unit == Units.C]) and the
    energy case on the unit object itself ([unit == Units.KWH]): an entity
    is a temperature exactly when the attribute is [C], and an energy
    exactly when the attribute is not [C] and the object compares equal to
    [KWH], whatever its attribute is otherwise. *)
Theorem device_class_mixes_comparisons (u : UnitObj) :
  (select_device_class unit_eq u = Some SensorDeviceClass.TEMPERATURE
     ↔ unit u = Units.C) ∧
  (select_device_class unit_eq u = Some SensorDeviceClass.ENERGY
     ↔ unit u ≠ Units.C ∧ unit_eq u Units.KWH = true).
Proof.
  unfold select_device_class. split.
  - destruct (decide (unit u = Units.C)) as [HC|HC]; [done|].
    split; [|done]. intros H.
    repeat match type of H with
           | (if ?b then _ else _) = _ => destruct b; try discriminate H
           end.
  - destruct (decide (unit u = Units.C)) as [HC|HC].
    + split; [discriminate|]. by intros [? _].
    + destruct (unit_eq u Units.KWH); [done|].
      split; [|by intros [_ ?]]. intros H.
      repeat match type of H with
             | (if ?b then _ else _) = _ => destruct b; try discriminate H
             end.
Qed.

(** C8. A set-up that returns registers one timer, for
    [endpoint.async_refresh], and its interval is [SCAN_INTERVAL], which is
    30 seconds: no part of the configuration entry, of [hass.data] or of
    the device's response enters it. *)
Theorem poll_interval_is_30_seconds hass_data entry_id get_data :
  let run := async_setup_entry DOMAIN MANUFACTURER unit_eq Units_value
               hass_data entry_id get_data in
  setup_result run = Returned tt →
  poll_intervals (setup_calls run) = [SCAN_INTERVAL] ∧
  async_track_time_interval endpoint_async_refresh SCAN_INTERVAL ∈ setup_calls run ∧
  timedelta.days SCAN_INTERVAL = 0 ∧
  timedelta.seconds SCAN_INTERVAL = 30 ∧
  timedelta.microseconds SCAN_INTERVAL = 0 ∧
  timedelta.total_microseconds SCAN_INTERVAL = 30 * 1000000.
Proof.
  intros run Hret. subst run.
  destruct (async_setup_entry_inv _ _ _ Hret) as (entries & api & resp & Hd & He & ->).
  rewrite (async_setup_entry_returned _ _ _ _ _ Hd He). simpl.
  split_and!; try reflexivity.
  apply list_elem_of_further, list_elem_of_here.
Qed.

(** C10. A set-up that finds its API and whose first fetch returns creates
    one entity for every entry of the catalog, in the catalog's order, and
    hands all of them to [async_add_entities]. Every entity has a state
    class: [TOTAL_INCREASING] when the unit is a [Monotonic], [MEASUREMENT]
    otherwise. Its device class is [None] whenever the unit matches none of
    the tests for [C], [KWH], [V], [A], [W] and [PERCENT]. *)
Theorem setup_classifies_every_entry hass_data entries entry_id api resp :
  hass_data !! DOMAIN = Some entries →
  entries !! entry_id = Some api →
  let run := async_setup_entry DOMAIN MANUFACTURER unit_eq Units_value
               hass_data entry_id (Returned resp) in
  ∃ devices,
    setup_result run = Returned tt ∧
    sensors <$> endpoint run = Some devices ∧
    async_add_entities devices ∈ setup_calls run ∧
    length devices = length (inverter_sensor_map api) ∧
    ∀ i sensor idx u,
      inverter_sensor_map api !! i = Some (sensor, (idx, u)) →
      ∃ entity,
        devices !! i = Some entity ∧
        key entity = sensor ∧
        _attr_state_class entity =
          Some (if is_Monotonic u then SensorStateClass.TOTAL_INCREASING
                else SensorStateClass.MEASUREMENT) ∧
        (unit u ≠ Units.C →
         unit_eq u Units.KWH = false → unit_eq u Units.V = false →
         unit_eq u Units.A = false → unit_eq u Units.W = false →
         unit_eq u Units.PERCENT = false →
         _attr_device_class entity = None).
Proof.
  intros Hd He run. subst run.
  rewrite (async_setup_entry_returned _ _ _ _ _ Hd He). simpl.
  eexists. split_and!; [reflexivity|reflexivity| | |].
  - do 2 apply list_elem_of_further. apply list_elem_of_here.
  - by rewrite length_map.
  - intros i sensor idx u Hi. eexists. split.
    { rewrite list_lookup_fmap. unfold fmap, list_fmap. by rewrite Hi. }
    simpl. split_and!; [reflexivity| |].
    + unfold select_state_class. by destruct (is_Monotonic u).
    + intros HC HKWH HV HA HW HP. unfold select_device_class.
      rewrite decide_False by done. by rewrite HKWH, HV, HA, HW, HP.
Qed.

End SetupFacts.

Lemma poll_interval_is_30_seconds_witness :
  let run := async_setup_entry "solax" "Solax" unit_eq_inner Units.show
               (scenario_hass_data "solax") "e1"
               (Returned (scenario_response snapshot1)) in
  poll_intervals (setup_calls run) = [SCAN_INTERVAL] ∧
  async_track_time_interval endpoint_async_refresh SCAN_INTERVAL ∈ setup_calls run ∧
  timedelta.days SCAN_INTERVAL = 0 ∧
  timedelta.seconds SCAN_INTERVAL = 30 ∧
  timedelta.microseconds SCAN_INTERVAL = 0 ∧
  timedelta.total_microseconds SCAN_INTERVAL = 30 * 1000000.
Proof.
  apply (poll_interval_is_30_seconds "solax" "Solax" unit_eq_inner Units.show
           (scenario_hass_data "solax") "e1"
           (Returned (scenario_response snapshot1))).
  reflexivity.
Defined.

Lemma setup_classifies_every_entry_witness :
  let run := async_setup_entry "solax" "Solax" unit_eq_never Units.show
               (scenario_hass_data "solax") "e1"
               (Returned (scenario_response snapshot1)) in
  ∃ devices,
    setup_result run = Returned tt ∧
    sensors <$> endpoint run = Some devices ∧
    async_add_entities devices ∈ setup_calls run ∧
    length devices = length (inverter_sensor_map scenario_api) ∧
    ∀ i sensor idx u,
      inverter_sensor_map scenario_api !! i = Some (sensor, (idx, u)) →
      ∃ entity,
        devices !! i = Some entity ∧
        key entity = sensor ∧
        _attr_state_class entity =
          Some (if is_Monotonic u then SensorStateClass.TOTAL_INCREASING
                else SensorStateClass.MEASUREMENT) ∧
        (unit u ≠ Units.C →
         unit_eq_never u Units.KWH = false → unit_eq_never u Units.V = false →
         unit_eq_never u Units.A = false → unit_eq_never u Units.W = false →
         unit_eq_never u Units.PERCENT = false →
         _attr_device_class entity = None).
Proof.
  apply (setup_classifies_every_entry "solax" "Solax" unit_eq_never Units.show
           (scenario_hass_data "solax") {[ "e1" := scenario_api ]} "e1"
           scenario_api (scenario_response snapshot1));
    reflexivity.
Defined.

(** C6. The catalog is [soc] in percent and [pv1_power] in watt. The
    entities the set-up creates hold no value. A refresh with snapshot
    [{soc: 42}] leaves [soc] at 42 and [pv1_power] without value; a second
    refresh with [{soc: 50, pv1_power: 1200}] leaves [soc] at 50 and
    [pv1_power] at 1200. This holds whichever call triggers either refresh. *)
Theorem scenario_two_refreshes DOMAIN MANUFACTURER unit_eq Units_value now1 now2 :
  ∃ ep0,
    endpoint (async_setup_entry DOMAIN MANUFACTURER unit_eq Units_value
                (scenario_hass_data DOMAIN) "e1"
                (Returned (scenario_response ∅))) = Some ep0 ∧
    readings ep0 = [("soc", None); ("pv1_power", None)] ∧
    let run1 := async_refresh ep0 now1 (Returned (scenario_response snapshot1)) in
    result run1 = Returned tt ∧
    readings (after run1) = [("soc", Some 42); ("pv1_power", None)] ∧
    let run2 := async_refresh (after run1) now2
                  (Returned (scenario_response snapshot2)) in
    result run2 = Returned tt ∧
    readings (after run2) = [("soc", Some 50); ("pv1_power", Some 1200)].
Proof.
  eexists. split.
  { erewrite async_setup_entry_returned;
      [reflexivity|apply lookup_singleton_eq|apply lookup_singleton_eq]. }
  split; [reflexivity|]. intros run1. split_and!; [reflexivity..|].
  intros run2. split; reflexivity.
Qed.

(** With a comparison that never holds between a unit object and a member of
    [Units], a kilowatt-hour reading gets no device class while a Celsius
    reading is a temperature; with a comparison on the attribute, the former
    is an energy. *)
Example kwh_without_object_equality :
  select_device_class unit_eq_never {| unit := Units.KWH; is_Monotonic := true |} = None ∧
  select_device_class unit_eq_never {| unit := Units.C; is_Monotonic := false |}
    = Some SensorDeviceClass.TEMPERATURE ∧
  select_device_class unit_eq_inner {| unit := Units.KWH; is_Monotonic := true |}
    = Some SensorDeviceClass.ENERGY.
Proof. by split_and!. Qed.

(** ** Further properties of the refresh operation *)

(** Two filters agree on a list when their tests agree on its elements. *)
Lemma filter_ext_elements {A : Type} (P1 P2 : A → Prop)
    `{!∀ x, Decision (P1 x), !∀ x, Decision (P2 x)} (l : list A) :
  Forall (λ x, P1 x ↔ P2 x) l → filter P1 l = filter P2 l.
Proof.
  induction 1 as [|x l Hx _ IH]; [reflexivity|].
  rewrite !filter_cons, IH.
  destruct (decide (P1 x)), (decide (P2 x)); tauto.
Qed.

Section RefreshCalculus.
Context {Reading : Type}.
Implicit Types (seen data : gmap string Reading) (sensor : InverterEntity Reading).
Implicit Types (l : list (InverterEntity Reading)).
Implicit Types (self : RealTimeDataEndpoint Reading) (now : option Z).
Implicit Types (resp : InverterResponse Reading).
Implicit Types (fetches : list (option Z * outcome (InverterResponse Reading))).

Lemma show_latest_key seen sensor : key (show_latest seen sensor) = key sensor.
Proof. unfold show_latest. by destruct (seen !! key sensor). Qed.

Lemma show_latest_static seen sensor :
  static_attributes (show_latest seen sensor) = static_attributes sensor.
Proof. unfold show_latest. by destruct (seen !! key sensor). Qed.

Lemma show_latest_empty sensor : show_latest ∅ sensor = sensor.
Proof. unfold show_latest. by rewrite lookup_empty. Qed.

(** Showing an older mapping and then a newer one is showing the newer one
    laid over the older one. *)
Lemma show_latest_union older newer sensor :
  show_latest newer (show_latest older sensor) = show_latest (newer ∪ older) sensor.
Proof.
  unfold show_latest at 1 3. rewrite show_latest_key, lookup_union.
  unfold show_latest.
  destruct (newer !! key sensor), (older !! key sensor); reflexivity.
Qed.

Lemma refresh_sensors_fst data l : ∀ i,
  (refresh_sensors data i l).1 = show_latest data <$> l.
Proof.
  induction l as [|sensor l IH]; intros i; [reflexivity|].
  rewrite refresh_sensors_cons, fmap_cons. cbn [fst]. rewrite IH. f_equal.
  unfold refresh_sensor, show_latest. by destruct (data !! key sensor).
Qed.

(** The requests of the loop are the positions, in increasing order, whose
    sensor has its key in the snapshot. *)
Lemma refresh_sensors_snd data l : ∀ i,
  (refresh_sensors data i l).2 =
    async_schedule_update_ha_state <$>
      filter (λ p, is_Some (l !! (p - i)%nat ≫= λ sensor, data !! key sensor))
             (seq i (length l)).
Proof.
  induction l as [|sensor l IH]; intros i; [reflexivity|].
  assert (filter (λ p, is_Some ((sensor :: l) !! (p - i)%nat
                                  ≫= λ sensor, data !! key sensor))
                 (seq (S i) (length l))
          = filter (λ p, is_Some (l !! (p - S i)%nat ≫= λ sensor, data !! key sensor))
                   (seq (S i) (length l))) as Htail.
  { apply filter_ext_elements. apply Forall_forall. intros p [Hp _]%elem_of_seq.
    replace (p - i)%nat with (S (p - S i)) by lia. reflexivity. }
  rewrite refresh_sensors_cons. cbn [snd length seq].
  rewrite IH, filter_cons, Htail, Nat.sub_diag.
  cbn [lookup list_lookup mbind option_bind]. unfold refresh_sensor.
  destruct (data !! key sensor) as [v|] eqn:Hv.
  - rewrite decide_True by by eexists. reflexivity.
  - rewrite decide_False by by intros []. reflexivity.
Qed.


(** The sensors after a refresh, whatever the fetch produced. *)
Lemma sensors_after_refresh self now (get_data : outcome (InverterResponse Reading)) :
  sensors (after (async_refresh self now get_data)) =
    match get_data with
    | Returned resp => show_latest (data resp) <$> sensors self
    | Raised _ => sensors self
    end.
Proof.
  destruct get_data as [resp|err].
  - rewrite async_refresh_returned. cbn [after sensors]. apply refresh_sensors_fst.
  - unfold async_refresh. by destruct (is_InverterError err), now.
Qed.

Lemma latest_data_snoc fetches now (get_data : outcome (InverterResponse Reading)) :
  latest_data (fetches ++ [(now, get_data)]) =
    match get_data with
    | Returned resp => data resp ∪ latest_data fetches
    | Raised _ => latest_data fetches
    end.
Proof. unfold latest_data. by rewrite foldl_app. Qed.

Lemma sensors_refresh_all self fetches :
  sensors (refresh_all self fetches) =
    show_latest (latest_data fetches) <$> sensors self.
Proof.
  induction fetches as [|[now get_data] fetches IH] using rev_ind.
  - cbn. rewrite <- (list_fmap_id (sensors self)) at 1.
    apply list_fmap_ext. intros _ sensor _. by rewrite show_latest_empty.
  - rewrite refresh_all_snoc, sensors_after_refresh, latest_data_snoc, IH.
    cbn [fst snd]. destruct get_data as [resp|err]; [|reflexivity].
    rewrite <- list_fmap_compose. apply list_fmap_ext. intros _ sensor _.
    apply show_latest_union.
Qed.

(** A snapshot that holds none of the sensors' keys leaves the loop idle. *)
Lemma refresh_sensors_no_match data l : ∀ i,
  Forall (λ sensor, data !! key sensor = None) l →
  refresh_sensors data i l = (l, []).
Proof.
  induction l as [|sensor l IH]; intros i Hl; [reflexivity|].
  apply Forall_cons in Hl as [Hsensor Hl].
  rewrite refresh_sensors_cons, (IH _ Hl). unfold refresh_sensor.
  by rewrite Hsensor.
Qed.

(** X1. Over any sequence of refreshes, whatever their origin and whatever
    their fetches produce, the list of entities keeps its length and every
    entity keeps its key, its unique id, its name, its unit, its state and
    device class and its device info: only values change. *)
Theorem refreshes_keep_static_attributes self fetches :
  Forall2 (λ before later, static_attributes later = static_attributes before)
    (sensors self) (sensors (refresh_all self fetches)).
Proof.
  rewrite sensors_refresh_all. apply Forall2_fmap_r, Forall_Forall2_diag.
  apply Forall_forall. intros sensor _. apply show_latest_static.
Qed.

(** With update requests that return, the general refresh is [async_refresh]. *)
Lemma refresh_sensors_hosted_quiet host data l :
  (∀ j, host j = None) →
  ∀ i, refresh_sensors_hosted host data i l = (refresh_sensors data i l, None).
Proof.
  intros Hquiet. induction l as [|sensor l IH]; intros i; [reflexivity|].
  cbn [refresh_sensors_hosted]. rewrite IH, refresh_sensors_cons, Hquiet.
  unfold refresh_sensor.
  destruct (data !! key sensor), (refresh_sensors data (S i) l); reflexivity.
Qed.

Lemma async_refresh_hosted_quiet host self now
    (get_data : outcome (InverterResponse Reading)) :
  (∀ j, host j = None) →
  async_refresh_hosted host self now get_data = async_refresh self now get_data.
Proof.
  intros Hquiet. destruct get_data as [resp|err]; [|reflexivity].
  unfold async_refresh_hosted, async_refresh.
  rewrite (refresh_sensors_hosted_quiet _ _ _ Hquiet).
  by destruct (refresh_sensors (data resp) 0 (sensors self)).
Qed.

Lemma refresh_all_hosted_quiet
    (refreshes : list (option Z * outcome (InverterResponse Reading)
                       * (nat → option pyexn))) :
  Forall (λ call, ∀ i, call.2 i = None) refreshes →
  ∀ self, refresh_all_hosted self refreshes = refresh_all self (fst <$> refreshes).
Proof.
  induction 1 as [|[[now get_data] host] refreshes Hquiet _ IH]; intros self;
    [reflexivity|].
  unfold refresh_all_hosted, refresh_all in *. rewrite fmap_cons. cbn [foldl fst snd].
  rewrite (async_refresh_hosted_quiet _ _ _ _ Hquiet). apply IH.
Qed.

(** The loop that stops on a raising update request: the request is the one
    on some entity whose key is in the snapshot; that entity holds the
    snapshot's value, the entities after it are untouched and the request is
    the last call made. *)
Lemma refresh_sensors_hosted_raised host data l : ∀ i sensors' made e,
  refresh_sensors_hosted host data i l = (sensors', made, Some e) →
  ∃ j sensor v,
    l !! j = Some sensor ∧ data !! key sensor = Some v ∧
    host (i + j)%nat = Some e ∧
    value <$> sensors' !! j = Some (Some v) ∧
    drop (S j) sensors' = drop (S j) l ∧
    last made = Some (async_schedule_update_ha_state (i + j)).
Proof.
  induction l as [|sensor l IH]; intros i sensors' made e Hrun;
    cbn [refresh_sensors_hosted] in Hrun; [discriminate|].
  destruct (refresh_sensors_hosted host data (S i) l) as [[rest' cs] raised] eqn:Hrest.
  destruct (data !! key sensor) as [v|] eqn:Hv.
  - destruct (host i) as [e'|] eqn:Hhost.
    + injection Hrun as <- <- <-. exists 0%nat, sensor, v.
      rewrite Nat.add_0_r. by split_and!.
    + injection Hrun as <- <- ->.
      destruct (IH _ _ _ _ Hrest) as (j & s & w & Hj & Hw & Hh & Hval & Hdrop & Hlast).
      exists (S j), s, w. replace (i + S j)%nat with (S i + j)%nat by lia.
      split_and!; try done. by rewrite last_cons, Hlast.
  - injection Hrun as <- <- ->.
    destruct (IH _ _ _ _ Hrest) as (j & s & w & Hj & Hw & Hh & Hval & Hdrop & Hlast).
    exists (S j), s, w. replace (i + S j)%nat with (S i + j)%nat by lia.
    by split_and!.
Qed.

(** X2. When [async_refresh] raises, one of three things happened. The
    fetch raised an exception that is not an [InverterError]: it leaves
    [async_refresh] unchanged. Or the call came from set-up and the fetch
    raised [InverterError]: [PlatformNotReady], chained to it, is raised. In
    both cases the endpoint is as it was and no update was requested; an
    [InverterError] of the fetch never leaves [async_refresh] as such. Or the
    fetch returned and the update request on an entity whose key is in the
    snapshot raised: that exception leaves [async_refresh], and by then the
    readiness flag is set, that entity holds the snapshot's value, the
    entities after it are untouched and the request is the last call made. *)
Theorem refresh_raises_only host self now
    (get_data : outcome (InverterResponse Reading)) e :
  let run := async_refresh_hosted host self now get_data in
  result run = Raised e →
  (get_data = Raised e ∧ is_InverterError e = false ∧
   after run = self ∧ calls run = []) ∨
  (now = None ∧
   (∃ msg, get_data = Raised (InverterError msg) ∧
           e = PlatformNotReady (InverterError msg)) ∧
   after run = self ∧ calls run = []) ∨
  (∃ resp i sensor v,
     get_data = Returned resp ∧
     sensors self !! i = Some sensor ∧ data resp !! key sensor = Some v ∧
     host i = Some e ∧
     ready (after run) = true ∧
     value <$> sensors (after run) !! i = Some (Some v) ∧
     drop (S i) (sensors (after run)) = drop (S i) (sensors self) ∧
     last (calls run) = Some (async_schedule_update_ha_state i)).
Proof.
  intros run. subst run. destruct get_data as [resp|err].
  - unfold async_refresh_hosted.
    destruct (refresh_sensors_hosted host (data resp) 0 (sensors self))
      as [[sensors' made] [e'|]] eqn:Hloop; cbn; [|discriminate].
    intros [= <-]. right. right.
    destruct (refresh_sensors_hosted_raised _ _ _ _ _ _ _ Hloop)
      as (i & sensor & v & Hi & Hv & Hhost & Hval & Hdrop & Hlast).
    exists resp, i, sensor, v. by split_and!.
  - unfold async_refresh_hosted.
    destruct (is_InverterError err) eqn:Herr.
    + destruct now as [t|]; [discriminate|]. cbn. intros [= <-].
      destruct err; try discriminate Herr. right. left. split_and!; eauto.
    + cbn. intros [= <-]. left. by split_and!.
Qed.

(** X3. The updates a successful refresh requests are exactly the positions
    of [self.sensors] whose key is in the snapshot, each once and in list
    order; the old value plays no part, so an entity whose value does not
    change is requested too. *)
Theorem refresh_requests_exactly self now resp :
  calls (async_refresh self now (Returned resp)) =
    async_schedule_update_ha_state <$>
      filter (λ p, is_Some (sensors self !! p ≫= λ sensor, data resp !! key sensor))
             (seq 0 (length (sensors self))).
Proof.
  rewrite async_refresh_returned. cbn [calls]. rewrite refresh_sensors_snd.
  f_equal. apply filter_ext_elements, Forall_forall. intros p _.
  by rewrite Nat.sub_0_r.
Qed.

(** X4. After any sequence of refreshes none of whose update requests
    raises, every entity has the key it had, and its value is the value of
    the latest returned snapshot that holds its key; it is the value it had
    before the sequence when no returned snapshot holds the key. Refreshes
    whose fetch raised contribute nothing and erase nothing. *)
Theorem refreshes_show_latest_data self
    (refreshes : list (option Z * outcome (InverterResponse Reading)
                       * (nat → option pyexn))) :
  Forall (λ call, ∀ i, call.2 i = None) refreshes →
  let later := refresh_all_hosted self refreshes in
  key <$> sensors later = key <$> sensors self ∧
  value <$> sensors later =
    (λ sensor, match latest_data (fst <$> refreshes) !! key sensor with
               | Some v => Some v
               | None => value sensor
               end) <$> sensors self.
Proof.
  intros Hquiet later. subst later.
  rewrite (refresh_all_hosted_quiet _ Hquiet), sensors_refresh_all.
  rewrite <- !list_fmap_compose. split.
  - apply list_fmap_ext. intros _ sensor _. apply show_latest_key.
  - apply list_fmap_ext. intros _ sensor _. cbn. unfold show_latest.
    by destruct (latest_data (fst <$> refreshes) !! key sensor).
Qed.


(** X6. A successful refresh whose snapshot holds the key of no entity, an
    empty snapshot for one, changes no entity and requests no update; it
    still returns and sets the readiness flag. *)
Theorem refresh_without_matching_keys self now resp :
  Forall (λ sensor, data resp !! key sensor = None) (sensors self) →
  let run := async_refresh self now (Returned resp) in
  result run = Returned tt ∧
  sensors (after run) = sensors self ∧
  calls run = [] ∧
  ready (after run) = true.
Proof.
  intros Hnone run. subst run. rewrite async_refresh_returned.
  cbn [result after calls sensors ready].
  by rewrite (refresh_sensors_no_match _ _ _ Hnone).
Qed.

End RefreshCalculus.

Lemma refresh_raises_only_witness :
  let e := OtherException "RuntimeError" "no running event loop" in
  let get_data := Returned (scenario_response snapshot1) in
  let run := async_refresh_hosted host_failing_first new_endpoint None get_data in
  (get_data = Raised e ∧ is_InverterError e = false ∧
   after run = new_endpoint ∧ calls run = []) ∨
  (None = None (A := Z) ∧
   (∃ msg, get_data = Raised (InverterError msg) ∧
           e = PlatformNotReady (InverterError msg)) ∧
   after run = new_endpoint ∧ calls run = []) ∨
  (∃ resp i sensor v,
     get_data = Returned resp ∧
     sensors new_endpoint !! i = Some sensor ∧ data resp !! key sensor = Some v ∧
     host_failing_first i = Some e ∧
     ready (after run) = true ∧
     value <$> sensors (after run) !! i = Some (Some v) ∧
     drop (S i) (sensors (after run)) = drop (S i) (sensors new_endpoint) ∧
     last (calls run) = Some (async_schedule_update_ha_state i)).
Proof.
  apply (refresh_raises_only host_failing_first new_endpoint None
           (Returned (scenario_response snapshot1))
           (OtherException "RuntimeError" "no running event loop")).
  reflexivity.
Defined.

Lemma refreshes_show_latest_data_witness :
  let refreshes :=
    [ (None, Returned (scenario_response snapshot1), λ _ : nat, None);
      (Some 30, Raised (InverterError "timeout"), λ _ : nat, None);
      (Some 60, Returned (scenario_response {[ "pv1_power" := 1200 ]}),
       λ _ : nat, None) ] in
  let later := refresh_all_hosted new_endpoint refreshes in
  key <$> sensors later = key <$> sensors new_endpoint ∧
  value <$> sensors later =
    (λ sensor, match latest_data (fst <$> refreshes) !! key sensor with
               | Some v => Some v
               | None => value sensor
               end) <$> sensors new_endpoint.
Proof.
  apply (refreshes_show_latest_data new_endpoint
           [ (None, Returned (scenario_response snapshot1), λ _ : nat, None);
             (Some 30, Raised (InverterError "timeout"), λ _ : nat, None);
             (Some 60, Returned (scenario_response {[ "pv1_power" := 1200 ]}),
              λ _ : nat, None) ]).
  repeat constructor.
Defined.

(** The values the sequence above leaves: the battery level of the first
    snapshot survives the failed fetch and the snapshot that lacks it. *)
Example latest_values_after_three_refreshes :
  readings (refresh_all_hosted new_endpoint
              [ (None, Returned (scenario_response snapshot1), λ _ : nat, None);
                (Some 30, Raised (InverterError "timeout"), λ _ : nat, None);
                (Some 60, Returned (scenario_response {[ "pv1_power" := 1200 ]}),
                 λ _ : nat, None) ])
    = [("soc", Some 42); ("pv1_power", Some 1200)].
Proof. reflexivity. Qed.

(** The run in which the first update request raises: the exception leaves
    the refresh, the flag is set and the battery level is written. *)
Example refresh_with_failing_host :
  let run := async_refresh_hosted host_failing_first new_endpoint None
               (Returned (scenario_response snapshot1)) in
  result run = Raised (OtherException "RuntimeError" "no running event loop") ∧
  ready (after run) = true ∧
  readings (after run) = [("soc", Some 42); ("pv1_power", None)] ∧
  calls run = [async_schedule_update_ha_state 0].
Proof. by split_and!. Qed.

Lemma refresh_without_matching_keys_witness :
  let run := async_refresh ready_endpoint (Some 30)
               (Returned (scenario_response {[ "grid_power" := 7 ]})) in
  result run = Returned tt ∧
  sensors (after run) = sensors ready_endpoint ∧
  calls run = [] ∧
  ready (after run) = true.
Proof.
  apply (refresh_without_matching_keys ready_endpoint (Some 30)
           (scenario_response {[ "grid_power" := 7 ]})).
  repeat constructor.
Defined.

(** X7. When the set-up refresh is the first call on a new endpoint and
    every later call comes from the timer, the readiness flag after the
    calls tells whether the latest fetch returned, as long as fetches fail
    with [InverterError] only. *)
Theorem readiness_tracks_latest_fetch {Reading : Type} api
    (first : outcome (InverterResponse Reading)) later :
  fetch_settled first = true →
  Forall (λ c, fetch_settled c.2 = true) later →
  ready (refresh_all (RealTimeDataEndpoint_init api) (lifecycle first later)) =
    fetch_returned (List.last (map snd later) first).
Proof. apply lifecycle_ready_is_latest_fetch. Qed.

Lemma readiness_tracks_latest_fetch_witness :
  ready (refresh_all (RealTimeDataEndpoint_init scenario_api)
           (lifecycle (Returned (scenario_response snapshot1))
              [(30, Raised (InverterError "timeout"));
               (60, Returned (scenario_response snapshot2));
               (90, Raised (InverterError "busy"))])) =
    fetch_returned
      (List.last
         (map snd [(30, Raised (InverterError "timeout"));
                   (60, Returned (scenario_response snapshot2));
                   (90, Raised (InverterError "busy"))])
         (Returned (scenario_response snapshot1))).
Proof.
  apply (readiness_tracks_latest_fetch scenario_api
           (Returned (scenario_response snapshot1))
           [(30, Raised (InverterError "timeout"));
            (60, Returned (scenario_response snapshot2));
            (90, Raised (InverterError "busy"))]).
  - reflexivity.
  - repeat constructor.
Defined.

(** ** Further properties of the set-up *)

Section SetupCalculus.
Context {Reading : Type}.
Variables DOMAIN MANUFACTURER : string.
Variable unit_eq : UnitObj → Units.t → bool.
Variable Units_value : Units.t → string.
Implicit Types (hass_data : gmap string (gmap string RealTimeAPI)).
Implicit Types (resp : InverterResponse Reading).
Implicit Types (get_data : outcome (InverterResponse Reading)).
Implicit Types (item : string * (Z * UnitObj)).

Lemma make_device_unique_id manufacturer serial version item :
  _attr_unique_id (make_device (Reading := Reading) DOMAIN MANUFACTURER unit_eq
                     Units_value manufacturer serial version item)
    = serial +:+ "-" +:+ pretty item.2.1.
Proof. by destruct item as [sensor [idx u]]. Qed.

Lemma make_device_key manufacturer serial version item :
  key (make_device (Reading := Reading) DOMAIN MANUFACTURER unit_eq
         Units_value manufacturer serial version item) = item.1.
Proof. by destruct item as [sensor [idx u]]. Qed.

Lemma make_device_value manufacturer serial version item :
  value (make_device (Reading := Reading) DOMAIN MANUFACTURER unit_eq
           Units_value manufacturer serial version item) = None.
Proof. by destruct item as [sensor [idx u]]. Qed.

(** X8. A set-up that raises has made no call into the host and has created
    no endpoint. What it raises is a [KeyError] for [DOMAIN] or for the entry
    id when [hass.data] lacks them, and otherwise the exception of the first
    fetch, unchanged: an [InverterError] is not turned into
    [PlatformNotReady] here. *)
Theorem setup_failure_is_clean hass_data entry_id get_data e :
  let run := async_setup_entry DOMAIN MANUFACTURER unit_eq Units_value
               hass_data entry_id get_data in
  setup_result run = Raised e →
  setup_calls run = [] ∧
  endpoint run = None ∧
  (hass_data !! DOMAIN = None ∧ e = KeyError DOMAIN ∨
   (∃ entries, hass_data !! DOMAIN = Some entries ∧
               entries !! entry_id = None ∧ e = KeyError entry_id) ∨
   (∃ entries api, hass_data !! DOMAIN = Some entries ∧
                   entries !! entry_id = Some api ∧ get_data = Raised e)).
Proof.
  intros run. subst run. unfold async_setup_entry.
  destruct (hass_data !! DOMAIN) as [entries|] eqn:Hd.
  - destruct (entries !! entry_id) as [api|] eqn:He.
    + destruct get_data as [resp|err]; [discriminate|].
      cbn. intros [= <-]. split_and!; eauto 10.
    + cbn. intros [= <-]. split_and!; eauto 10.
  - cbn. intros [= <-]. split_and!; eauto.
Qed.

(** X9. When the indices of the catalog are pairwise distinct, the unique
    ids of the entities a set-up creates are pairwise distinct. *)
Theorem setup_unique_ids_distinct hass_data entries entry_id api resp :
  hass_data !! DOMAIN = Some entries →
  entries !! entry_id = Some api →
  NoDup ((λ item, item.2.1) <$> inverter_sensor_map api) →
  let run := async_setup_entry DOMAIN MANUFACTURER unit_eq Units_value
               hass_data entry_id (Returned resp) in
  ∃ ep, endpoint run = Some ep ∧ NoDup (_attr_unique_id <$> sensors ep).
Proof.
  intros Hd He Hidx run. subst run.
  rewrite (async_setup_entry_returned _ _ _ _ _ _ _ _ _ Hd He).
  eexists. split; [reflexivity|]. cbn [sensors].
  change (map ?f ?l) with (f <$> l). rewrite <- list_fmap_compose.
  rewrite (list_fmap_ext _
             ((λ idx, serial_number resp +:+ "-" +:+ pretty idx) ∘ (λ item, item.2.1))).
  - rewrite list_fmap_compose. apply NoDup_fmap_2; [|exact Hidx].
    intros idx1 idx2 Hsame.
    by apply (inj (String.app (serial_number resp))), (inj (String.app "-")),
             (inj pretty) in Hsame.
  - intros _ item _. apply make_device_unique_id.
Qed.

(** X10. All the entities of a set-up describe one device: each carries the
    device info made of [(DOMAIN, serial)], the constant [MANUFACTURER], the
    inverter's own manufacturer name followed by the serial number, and the
    firmware version of the first response; each is named after the
    inverter's manufacturer, the serial number and its own key. *)
Theorem setup_entities_share_device hass_data entries entry_id api resp :
  hass_data !! DOMAIN = Some entries →
  entries !! entry_id = Some api →
  let run := async_setup_entry DOMAIN MANUFACTURER unit_eq Units_value
               hass_data entry_id (Returned resp) in
  ∃ ep,
    endpoint run = Some ep ∧
    Forall (λ entity,
              _attr_device_info entity =
                {| identifiers := [(DOMAIN, serial_number resp)];
                   manufacturer := MANUFACTURER;
                   name := inverter_manufacturer api +:+ " " +:+ serial_number resp;
                   sw_version := version resp |} ∧
              _attr_name entity =
                inverter_manufacturer api +:+ " " +:+ serial_number resp
                  +:+ " " +:+ key entity)
           (sensors ep).
Proof.
  intros Hd He run. subst run.
  rewrite (async_setup_entry_returned _ _ _ _ _ _ _ _ _ Hd He).
  eexists. split; [reflexivity|]. cbn [sensors].
  change (map ?f ?l) with (f <$> l). apply Forall_fmap, Forall_forall.
  by intros [sensor [idx u]] _.
Qed.

(** X11. The device classes after the first two tests: an entity is a
    voltage, a current, a power or a battery exactly when the attribute of
    its unit is not [C], every earlier comparison of the unit object fails
    and the comparison with [V], [A], [W] or [PERCENT] holds; it has no
    device class exactly when the attribute is not [C] and all five
    comparisons fail. *)
Theorem device_class_table (u : UnitObj) :
  (select_device_class unit_eq u = Some SensorDeviceClass.VOLTAGE
     ↔ unit u ≠ Units.C ∧ unit_eq u Units.KWH = false ∧ unit_eq u Units.V = true) ∧
  (select_device_class unit_eq u = Some SensorDeviceClass.CURRENT
     ↔ unit u ≠ Units.C ∧ unit_eq u Units.KWH = false ∧ unit_eq u Units.V = false ∧
       unit_eq u Units.A = true) ∧
  (select_device_class unit_eq u = Some SensorDeviceClass.POWER
     ↔ unit u ≠ Units.C ∧ unit_eq u Units.KWH = false ∧ unit_eq u Units.V = false ∧
       unit_eq u Units.A = false ∧ unit_eq u Units.W = true) ∧
  (select_device_class unit_eq u = Some SensorDeviceClass.BATTERY
     ↔ unit u ≠ Units.C ∧ unit_eq u Units.KWH = false ∧ unit_eq u Units.V = false ∧
       unit_eq u Units.A = false ∧ unit_eq u Units.W = false ∧
       unit_eq u Units.PERCENT = true) ∧
  (select_device_class unit_eq u = None
     ↔ unit u ≠ Units.C ∧ unit_eq u Units.KWH = false ∧ unit_eq u Units.V = false ∧
       unit_eq u Units.A = false ∧ unit_eq u Units.W = false ∧
       unit_eq u Units.PERCENT = false).
Proof.
  unfold select_device_class.
  destruct (decide (unit u = Units.C)) as [HC|HC];
    destruct (unit_eq u Units.KWH), (unit_eq u Units.V), (unit_eq u Units.A),
             (unit_eq u Units.W), (unit_eq u Units.PERCENT);
    split_and!; (split; [try discriminate; tauto | intros (? & ?); try tauto]);
    intuition discriminate.
Qed.

(** X12. After a set-up and one successful refresh of the endpoint it
    created, the native value of every entity is what the snapshot holds for
    the catalog's sensor name at that position, and [None] when the snapshot
    lacks it. *)
Theorem setup_then_refresh_values hass_data entries entry_id api resp now resp' :
  hass_data !! DOMAIN = Some entries →
  entries !! entry_id = Some api →
  let run := async_setup_entry DOMAIN MANUFACTURER unit_eq Units_value
               hass_data entry_id (Returned resp) in
  ∃ ep,
    endpoint run = Some ep ∧
    native_value <$> sensors (after (async_refresh ep now (Returned resp'))) =
      (λ item, data resp' !! item.1) <$> inverter_sensor_map api.
Proof.
  intros Hd He run. subst run.
  rewrite (async_setup_entry_returned _ _ _ _ _ _ _ _ _ Hd He).
  eexists. split; [reflexivity|].
  rewrite sensors_after_refresh. cbn [sensors].
  change (map ?f ?l) with (f <$> l). rewrite <- !list_fmap_compose.
  apply list_fmap_ext. intros _ item _. cbn.
  unfold native_value, show_latest. rewrite make_device_key.
  destruct (data resp' !! item.1); [reflexivity|apply make_device_value].
Qed.

End SetupCalculus.

Lemma setup_failure_is_clean_witness :
  let run := async_setup_entry (Reading := Z) "solax" "Solax" unit_eq_inner Units.show
               (scenario_hass_data "solax") "e1" (Raised (InverterError "timeout")) in
  setup_calls run = [] ∧
  endpoint run = None ∧
  (scenario_hass_data "solax" !! "solax" = None ∧
     InverterError "timeout" = KeyError "solax" ∨
   (∃ entries, scenario_hass_data "solax" !! "solax" = Some entries ∧
               entries !! "e1" = None ∧ InverterError "timeout" = KeyError "e1") ∨
   (∃ entries api, scenario_hass_data "solax" !! "solax" = Some entries ∧
                   entries !! "e1" = Some api ∧
                   Raised (A := InverterResponse Z) (InverterError "timeout")
                     = Raised (InverterError "timeout"))).
Proof.
  apply (setup_failure_is_clean (Reading := Z) "solax" "Solax" unit_eq_inner Units.show
           (scenario_hass_data "solax") "e1" (Raised (InverterError "timeout"))
           (InverterError "timeout")).
  reflexivity.
Defined.

Lemma setup_unique_ids_distinct_witness :
  let run := async_setup_entry "solax" "Solax" unit_eq_inner Units.show
               (scenario_hass_data "solax") "e1"
               (Returned (scenario_response snapshot1)) in
  ∃ ep, endpoint run = Some ep ∧ NoDup (_attr_unique_id <$> sensors ep).
Proof.
  apply (setup_unique_ids_distinct "solax" "Solax" unit_eq_inner Units.show
           (scenario_hass_data "solax") {[ "e1" := scenario_api ]} "e1"
           scenario_api (scenario_response snapshot1)).
  - reflexivity.
  - reflexivity.
  - apply (bool_decide_unpack _). vm_compute. exact I.
Defined.

Lemma setup_entities_share_device_witness :
  let run := async_setup_entry "solax" "Solax" unit_eq_inner Units.show
               (scenario_hass_data "solax") "e1"
               (Returned (scenario_response snapshot1)) in
  ∃ ep,
    endpoint run = Some ep ∧
    Forall (λ entity,
              _attr_device_info entity =
                {| identifiers := [("solax", "SN1")];
                   manufacturer := "Solax";
                   name := "Solax" +:+ " " +:+ "SN1";
                   sw_version := "1.0" |} ∧
              _attr_name entity = "Solax" +:+ " " +:+ "SN1" +:+ " " +:+ key entity)
           (sensors ep).
Proof.
  apply (setup_entities_share_device "solax" "Solax" unit_eq_inner Units.show
           (scenario_hass_data "solax") {[ "e1" := scenario_api ]} "e1"
           scenario_api (scenario_response snapshot1));
    reflexivity.
Defined.

Lemma setup_then_refresh_values_witness :
  let run := async_setup_entry "solax" "Solax" unit_eq_inner Units.show
               (scenario_hass_data "solax") "e1"
               (Returned (scenario_response snapshot1)) in
  ∃ ep,
    endpoint run = Some ep ∧
    native_value <$> sensors (after (async_refresh ep None
                                       (Returned (scenario_response snapshot1)))) =
      (λ item, snapshot1 !! item.1) <$> inverter_sensor_map scenario_api.
Proof.
  apply (setup_then_refresh_values "solax" "Solax" unit_eq_inner Units.show
           (scenario_hass_data "solax") {[ "e1" := scenario_api ]} "e1"
           scenario_api (scenario_response snapshot1) None
           (scenario_response snapshot1));
    reflexivity.
Defined.
